(** * Smart Plant Analysis Service: a shallow embedding and its properties

    The embedding follows the Python sources of the analysis service:
    - [app/config.py]            -> [Settings], [default_settings], [get_settings]
    - [app/logger.py]            -> [logger_log], [logger_debug], [logger_info]
    - [app/services/analyzer.py] -> [_now_iso], [run_mock_analysis], [analyze_image]
    - [app/api/router.py]        -> [AnalyzeRequest], [validate_payload],
                                    [AnalyzeResponse], [health], [analyze]

    Python values that travel through loosely typed dicts are [pyval]s; a
    dict is an association list in insertion order.  Effects (the wall clock
    read by [datetime.utcnow] and the records handed to the logger) are
    threaded through an explicit [World]; exceptions are the [Raised] branch
    of [outcome]. *)

From Stdlib Require Import ZArith QArith String Ascii List Bool Lia DecimalString.
Import ListNotations.

Set Warnings "-register-all".

Local Open Scope string_scope.
Local Open Scope list_scope.
Local Open Scope Z_scope.

(** ** Python values *)

(** [float] literals are kept as the exact decimal written in the source
    (the service performs no arithmetic on them); [str] is kept as the
    sequence of its UTF-8 bytes, which preserves emptiness and equality. *)
Inductive pyval : Type :=
| VNone
| VBool (b : bool)
| VInt (z : Z)
| VFloat (q : Q)
| VStr (s : string)
| VList (l : list pyval)
| VDict (d : list (string * pyval)).

Definition pydict : Type := list (string * pyval).

Fixpoint dict_get (d : pydict) (k : string) : option pyval :=
  match d with
  | [] => None
  | (k', v) :: d' => if String.eqb k' k then Some v else dict_get d' k
  end.

Fixpoint dict_del (d : pydict) (k : string) : pydict :=
  match d with
  | [] => []
  | (k', v) :: d' => if String.eqb k' k then dict_del d' k else (k', v) :: dict_del d' k
  end.

Fixpoint dict_update (d : pydict) (k : string) (f : pyval -> pyval) : pydict :=
  match d with
  | [] => []
  | (k', v) :: d' =>
      if String.eqb k' k then (k', f v) :: dict_update d' k f
      else (k', v) :: dict_update d' k f
  end.

Definition keys (d : pydict) : list string := map fst d.

(** Truthiness of an [Optional[str]]-like value: [None] and [""] are falsy. *)
Definition truthy (o : option string) : bool :=
  match o with
  | None => false
  | Some s => negb (String.eqb s "")
  end.

(** [x or default] on an optional string. *)
Definition py_or (o : option string) (default : string) : string :=
  match o with
  | Some s => if truthy o then s else default
  | None => default
  end.

(** ** Exceptions and outcomes *)

Inductive exn : Type :=
| ValueError (msg : string)
| NotImplementedError (msg : string)
| HTTPException (status_code : Z) (detail : string)
| ValidationError (field : string) (msg : string).

Inductive outcome (A : Type) : Type :=
| Returned (a : A)
| Raised (e : exn).

Arguments Returned {A} a.
Arguments Raised {A} e.

Definition is_returned {A} (o : outcome A) : bool :=
  match o with Returned _ => true | Raised _ => false end.

Definition outcome_bind {A B} (o : outcome A) (k : A -> outcome B) : outcome B :=
  match o with
  | Returned a => k a
  | Raised e => Raised e
  end.

(** ** datetime *)

Module Datetime.

Record datetime : Type := mkDatetime {
  year : Z; month : Z; day : Z;
  hour : Z; minute : Z; second : Z; microsecond : Z
}.

Definition is_leap (y : Z) : bool :=
  (Z.eqb (y mod 4) 0 && negb (Z.eqb (y mod 100) 0)) || Z.eqb (y mod 400) 0.

Definition days_in_month (y m : Z) : Z :=
  if Z.eqb m 2 then (if is_leap y then 29 else 28)
  else if Z.eqb m 4 || Z.eqb m 6 || Z.eqb m 9 || Z.eqb m 11 then 30
  else 31.

(** The invariant every [datetime] object satisfies by construction. *)
Definition valid_datetime (d : datetime) : bool :=
  ((1 <=? year d) && (year d <=? 9999) &&
   (1 <=? month d) && (month d <=? 12) &&
   (1 <=? day d) && (day d <=? days_in_month (year d) (month d)) &&
   (0 <=? hour d) && (hour d <=? 23) &&
   (0 <=? minute d) && (minute d <=? 59) &&
   (0 <=? second d) && (second d <=? 59) &&
   (0 <=? microsecond d) && (microsecond d <=? 999999))%Z.

(** [d.replace(microsecond=us)] *)
Definition replace_microsecond (d : datetime) (us : Z) : datetime :=
  mkDatetime (year d) (month d) (day d) (hour d) (minute d) (second d) us.

(** [str(n)] for an integer. *)
Definition str_int (z : Z) : string := NilZero.string_of_int (Z.to_int z).

Fixpoint zeros (n : nat) : string :=
  match n with
  | O => ""
  | S n' => String "0" (zeros n')
  end.

Definition zfill (w : nat) (s : string) : string :=
  (zeros (w - String.length s) ++ s)%string.

(** ["%0<w>d" % z] *)
Definition fmt_0d (w : nat) (z : Z) : string :=
  if (z <? 0)%Z then ("-" ++ zfill (w - 1) (str_int (- z)))%string
  else zfill w (str_int z).

(** [d.isoformat()] of a naive datetime, separator ['T'], timespec
    ['auto']: the fraction is printed only when it is not zero. *)
Definition isoformat (d : datetime) : string :=
  (fmt_0d 4 (year d) ++ "-" ++ fmt_0d 2 (month d) ++ "-" ++ fmt_0d 2 (day d)
   ++ "T"
   ++ fmt_0d 2 (hour d) ++ ":" ++ fmt_0d 2 (minute d) ++ ":" ++ fmt_0d 2 (second d)
   ++ (if Z.eqb (microsecond d) 0 then "" else "." ++ fmt_0d 6 (microsecond d)))%string.

End Datetime.
Import Datetime.

(** ** Character patterns, used to state timestamp formats *)

Inductive cclass : Type :=
| Digit
| Lit (c : ascii).

Definition is_digit (c : ascii) : bool :=
  let n := nat_of_ascii c in (Nat.leb 48 n && Nat.leb n 57)%bool.

Definition cmatch (k : cclass) (c : ascii) : bool :=
  match k with
  | Digit => is_digit c
  | Lit l => Ascii.eqb c l
  end.

Fixpoint matches (p : list cclass) (s : string) : bool :=
  match p, s with
  | [], EmptyString => true
  | k :: p', String c s' => cmatch k c && matches p' s'
  | _, _ => false
  end.

(** [YYYY-MM-DDTHH:MM:SSZ] *)
Definition iso_seconds_Z : list cclass :=
  [Digit; Digit; Digit; Digit; Lit "-"; Digit; Digit; Lit "-"; Digit; Digit;
   Lit "T"; Digit; Digit; Lit ":"; Digit; Digit; Lit ":"; Digit; Digit; Lit "Z"].

(** ** config.py *)

Record Settings : Type := mkSettings {
  service_name : string;
  log_level : string;
  model_path : string;
  mock_analysis : bool
}.

Definition default_settings : Settings :=
  mkSettings "smart-plant-analysis" "info" "/models/plant_classifier.onnx" true.

(** ** The world: wall clock and logger sink *)

Record LogRecord : Type := mkLogRecord {
  lr_name : string;
  lr_level : Z;
  lr_msg : string;
  lr_extra : pydict
}.

(** [clock w n] is what the [n]-th read of the UTC wall clock yields;
    [reads w] counts the reads so far; [log w] holds the records emitted so
    far, oldest first. *)
Record World : Type := mkWorld {
  clock : nat -> datetime;
  reads : nat;
  log : list LogRecord
}.

Definition valid_clock (w : World) : Prop :=
  forall n, valid_datetime (clock w n) = true.

(** Computations of the service: state passing with exceptions. *)
Definition M (A : Type) : Type := World -> outcome A * World.

Definition ret {A} (a : A) : M A := fun w => (Returned a, w).

Definition raise {A} (e : exn) : M A := fun w => (Raised e, w).

Definition bind {A B} (m : M A) (k : A -> M B) : M B :=
  fun w =>
    match m w with
    | (Returned a, w') => k a w'
    | (Raised e, w') => (Raised e, w')
    end.

Definition lift {A} (o : outcome A) : M A := fun w => (o, w).

Notation "x <- m ;; k" := (bind m (fun x => k))
  (at level 61, m at next level, right associativity).
Notation "m ;;; k" := (bind m (fun _ => k))
  (at level 61, right associativity).

(** [datetime.utcnow()] *)
Definition utcnow : M datetime :=
  fun w => (Returned (clock w (reads w)), mkWorld (clock w) (S (reads w)) (log w)).

(** The records of a run that were emitted after [w0]. *)
Definition emitted (w0 w1 : World) : list LogRecord :=
  skipn (List.length (log w0)) (log w1).

(** ** The service *)

Section Service.

(** The cached object returned by [get_settings()]. *)
Variable settings : Settings.

(** The level of the root logger installed by [logging.basicConfig] in
    [logger.py]: a record is emitted when its level is at least this. *)
Variable effective_level : Z.

Definition get_settings : Settings := settings.

(** *** logger.py *)

Definition DEBUG : Z := 10.
Definition INFO : Z := 20.

Definition logger_log (level : Z) (msg : string) (extra : pydict) : M unit :=
  fun w =>
    if effective_level <=? level then
      (Returned tt,
       mkWorld (clock w) (reads w)
               (log w ++ [mkLogRecord (service_name settings) level msg extra]))
    else (Returned tt, w).

Definition logger_debug (msg : string) (extra : pydict) : M unit :=
  logger_log DEBUG msg extra.

Definition logger_info (msg : string) (extra : pydict) : M unit :=
  logger_log INFO msg extra.

(** *** services/analyzer.py *)

Definition _now_iso : M string :=
  now <- utcnow ;;
  ret (isoformat (replace_microsecond now 0) ++ "Z")%string.

Definition run_mock_analysis (plant_name : option string) : M pydict :=
  logger_debug "Running mock analysis" [] ;;;
  let detected_name := py_or plant_name "Monstera Deliciosa" in
  let recommendations :=
    [ VDict [ ("id", VStr "tip_water_adjust");
              ("title", VStr "ลดการรดน้ำ");
              ("desc", VStr "ลดความถี่ลงเหลือทุก 5 วัน") ];
      VDict [ ("id", VStr "tip_light");
              ("title", VStr "เพิ่มแสงอ่อน");
              ("desc", VStr "ตั้งใกล้หน้าต่างกรองแสงในตอนเช้า") ] ] in
  capturedAt <- _now_iso ;;
  createdAt <- _now_iso ;;
  ret [ ("id", VStr "analysis_mock_001");
        ("status", VStr "completed");
        ("plantName", VStr detected_name);
        ("issues",
           VList [ VDict [ ("code", VStr "yellow_leaf");
                           ("severity", VStr "moderate");
                           ("confidence", VFloat 0.72) ] ]);
        ("score", VFloat 0.85);
        ("recommendations", VList recommendations);
        ("weatherSnapshot",
           VDict [ ("tempC", VInt 33);
                   ("humidity", VInt 70);
                   ("condition", VStr "sunny");
                   ("capturedAt", VStr capturedAt) ]);
        ("createdAt", VStr createdAt) ].

Definition analyze_image (image_url image_base64 : option string) : M pydict :=
  let settings := get_settings in
  logger_info "Received analysis request"
              [ ("hasUrl", VBool (truthy image_url));
                ("hasBase64", VBool (truthy image_base64)) ] ;;;
  if mock_analysis settings then run_mock_analysis None
  else raise (NotImplementedError "Real model inference not yet implemented").

(** *** api/router.py *)

(** [imageUrl] is held by the text of the URL; a validated [HttpUrl] is
    never empty, so the model admits more requests than the framework
    delivers. *)
Record AnalyzeRequest : Type := mkAnalyzeRequest {
  imageUrl : option string;
  imageBase64 : option string
}.

Definition validate_payload (self : AnalyzeRequest) : outcome unit :=
  if negb (truthy (imageUrl self)) && negb (truthy (imageBase64 self))
  then Raised (ValueError "Either imageUrl or imageBase64 must be provided")
  else Returned tt.

Record AnalyzeResponse : Type := mkAnalyzeResponse {
  id : string;
  status : string;
  plantName : string;
  issues : list pydict;
  score : Q;
  recommendations : list pydict;
  weatherSnapshot : pydict;
  createdAt : string
}.

(** Field validators of the response model.  A field that is absent from
    the keyword arguments is an error; a keyword that names no field is
    ignored (the model keeps the default [extra] policy). *)
Definition required (kwargs : pydict) (field : string) : outcome pyval :=
  match dict_get kwargs field with
  | Some v => Returned v
  | None => Raised (ValidationError field "Field required")
  end.

Definition as_str (field : string) (v : pyval) : outcome string :=
  match v with
  | VStr s => Returned s
  | _ => Raised (ValidationError field "Input should be a valid string")
  end.

Definition as_float (field : string) (v : pyval) : outcome Q :=
  match v with
  | VFloat q => Returned q
  | VInt z => Returned (inject_Z z)
  | _ => Raised (ValidationError field "Input should be a valid number")
  end.

Definition as_dict (field : string) (v : pyval) : outcome pydict :=
  match v with
  | VDict d => Returned d
  | _ => Raised (ValidationError field "Input should be a valid dictionary")
  end.

Fixpoint all_dicts (field : string) (l : list pyval) : outcome (list pydict) :=
  match l with
  | [] => Returned []
  | v :: l' =>
      outcome_bind (as_dict field v) (fun d =>
      outcome_bind (all_dicts field l') (fun ds => Returned (d :: ds)))
  end.

Definition as_list_of_dict (field : string) (v : pyval) : outcome (list pydict) :=
  match v with
  | VList l => all_dicts field l
  | _ => Raised (ValidationError field "Input should be a valid list")
  end.

(** Construction of an [AnalyzeResponse] from keyword arguments. *)
Definition AnalyzeResponse_init (kwargs : pydict) : outcome AnalyzeResponse :=
  outcome_bind (outcome_bind (required kwargs "id") (as_str "id")) (fun f_id =>
  outcome_bind (outcome_bind (required kwargs "status") (as_str "status")) (fun f_status =>
  outcome_bind (outcome_bind (required kwargs "plantName") (as_str "plantName")) (fun f_name =>
  outcome_bind (outcome_bind (required kwargs "issues") (as_list_of_dict "issues")) (fun f_issues =>
  outcome_bind (outcome_bind (required kwargs "score") (as_float "score")) (fun f_score =>
  outcome_bind (outcome_bind (required kwargs "recommendations")
                             (as_list_of_dict "recommendations")) (fun f_recs =>
  outcome_bind (outcome_bind (required kwargs "weatherSnapshot")
                             (as_dict "weatherSnapshot")) (fun f_weather =>
  outcome_bind (outcome_bind (required kwargs "createdAt") (as_str "createdAt")) (fun f_created =>
  Returned (mkAnalyzeResponse f_id f_status f_name f_issues f_score f_recs
                              f_weather f_created))))))))).

Definition health : M pyval :=
  ret (VDict [ ("data", VDict [ ("status", VStr "ok") ]);
               ("meta", VDict []);
               ("errors", VList []) ]).

Definition analyze (req : AnalyzeRequest) : M AnalyzeResponse :=
  match validate_payload req with
  | Raised (ValueError exc) => raise (HTTPException 400 exc)
  | Raised e => raise e
  | Returned _ =>
      result <- analyze_image (imageUrl req) (imageBase64 req) ;;
      lift (AnalyzeResponse_init result)
  end.

(** *** main.py *)

Definition on_startup : M unit :=
  logger_info "Analysis service starting"
              [ ("mock", VBool (mock_analysis settings)) ].

Definition on_shutdown : M unit :=
  logger_info "Analysis service shutting down" [].

End Service.

(** ** Concrete inputs used to exercise the statements *)

Definition sample_datetime : datetime := mkDatetime 2026 11 3 9 5 7 123456.

Definition sample_world : World := mkWorld (fun _ => sample_datetime) 0 [].

Definition no_mock_settings : Settings :=
  mkSettings "smart-plant-analysis" "info" "/models/plant_classifier.onnx" false.

Definition url_request : AnalyzeRequest :=
  mkAnalyzeRequest (Some "https://example.com/plant.jpg") None.

(** ** Vocabulary of the statements *)

Definition validation_message : string :=
  "Either imageUrl or imageBase64 must be provided".

(** The result with its two timestamps taken out: [createdAt] at the top
    level and [capturedAt] inside [weatherSnapshot]. *)
Definition strip_timestamps (r : pydict) : pydict :=
  dict_update (dict_del r "createdAt") "weatherSnapshot"
    (fun v => match v with
              | VDict ws => VDict (dict_del ws "capturedAt")
              | _ => v
              end).

Definition key_set_eqb (ks1 ks2 : list string) : bool :=
  forallb (fun k => existsb (String.eqb k) ks2) ks1 &&
  forallb (fun k => existsb (String.eqb k) ks1) ks2.

(** [v] is a dict whose keys are exactly [ks]. *)
Definition has_exactly_keys (ks : list string) (v : pyval) : bool :=
  match v with
  | VDict d => key_set_eqb (keys d) ks
  | _ => false
  end.

(** The [recommendations] field of [r] is a non-empty list whose entries all
    have exactly the keys [ks]. *)
Definition recommendations_shape (ks : list string) (r : pydict) : bool :=
  match dict_get r "recommendations" with
  | Some (VList (e :: es)) => forallb (has_exactly_keys ks) (e :: es)
  | _ => false
  end.

Definition health_envelope : pyval :=
  VDict [ ("data", VDict [ ("status", VStr "ok") ]);
          ("meta", VDict []);
          ("errors", VList []) ].

(** The state left by the analyze handler after it served each of [reqs] in
    turn. *)
Fixpoint after_requests (s : Settings) (lvl : Z) (reqs : list AnalyzeRequest)
                        (w : World) : World :=
  match reqs with
  | [] => w
  | req :: reqs' => after_requests s lvl reqs' (snd (analyze s lvl req w))
  end.

(** The records [analyze_image] hands to the logger, as a function of the
    two presence flags only. *)
Definition request_records (s : Settings) (lvl : Z) (hasUrl hasBase64 : bool)
  : list LogRecord :=
  (if lvl <=? INFO
   then [ mkLogRecord (service_name s) INFO "Received analysis request"
            [ ("hasUrl", VBool hasUrl); ("hasBase64", VBool hasBase64) ] ]
   else []) ++
  (if mock_analysis s && (lvl <=? DEBUG)
   then [ mkLogRecord (service_name s) DEBUG "Running mock analysis" [] ]
   else []).

Definition response_fields : list string :=
  ["id"; "status"; "plantName"; "issues"; "score"; "recommendations";
   "weatherSnapshot"; "createdAt"].

Definition digit_val (c : ascii) : Z := Z.of_nat (nat_of_ascii c) - 48.

(** [s] is the two-digit (resp. four-digit) decimal numeral of [z]. *)
Definition two_digits_of (z : Z) (s : string) : bool :=
  match s with
  | String a (String b EmptyString) =>
      is_digit a && is_digit b && (10 * digit_val a + digit_val b =? z)
  | _ => false
  end.

Definition four_digits_of (z : Z) (s : string) : bool :=
  match s with
  | String a (String b (String c (String d EmptyString))) =>
      is_digit a && is_digit b && is_digit c && is_digit d &&
      (1000 * digit_val a + 100 * digit_val b + 10 * digit_val c + digit_val d =? z)
  | _ => false
  end.

(** Reading a timestamp of the form [YYYY-MM-DDTHH:MM:SSZ] back. *)
Definition parse_iso_seconds_Z (s : string) : option datetime :=
  match list_ascii_of_string s with
  | [y1; y2; y3; y4; p1; m1; m2; p2; d1; d2; p3; h1; h2; p4; n1; n2; p5; s1; s2; p6] =>
      if forallb is_digit [y1; y2; y3; y4; m1; m2; d1; d2; h1; h2; n1; n2; s1; s2]
         && Ascii.eqb p1 "-" && Ascii.eqb p2 "-" && Ascii.eqb p3 "T"
         && Ascii.eqb p4 ":" && Ascii.eqb p5 ":" && Ascii.eqb p6 "Z"
      then Some (mkDatetime
                   (1000 * digit_val y1 + 100 * digit_val y2 + 10 * digit_val y3 + digit_val y4)
                   (10 * digit_val m1 + digit_val m2)
                   (10 * digit_val d1 + digit_val d2)
                   (10 * digit_val h1 + digit_val h2)
                   (10 * digit_val n1 + digit_val n2)
                   (10 * digit_val s1 + digit_val s2)
                   0)
      else None
  | _ => None
  end.

(** The request names an image source: what [validate_payload] asks for. *)
Definition has_image_source (req : AnalyzeRequest) : bool :=
  truthy (imageUrl req) || truthy (imageBase64 req).

(** Two requests with the same presence pattern of their two fields. *)
Definition same_presence (r1 r2 : AnalyzeRequest) : Prop :=
  truthy (imageUrl r1) = truthy (imageUrl r2) /\
  truthy (imageBase64 r1) = truthy (imageBase64 r2).

(** How many records of [l] carry the message [msg]. *)
Definition count_msg (msg : string) (l : list LogRecord) : nat :=
  List.length (filter (fun r => String.eqb (lr_msg r) msg) l).

(** How many requests of [reqs] name an image source. *)
Definition count_accepted (reqs : list AnalyzeRequest) : nat :=
  List.length (filter has_image_source reqs).

(** A whole life of the process: the startup hook, the requests served in
    turn, the shutdown hook. *)
Definition lifecycle (s : Settings) (lvl : Z) (reqs : list AnalyzeRequest)
                     (w : World) : World :=
  snd (on_shutdown s lvl (after_requests s lvl reqs (snd (on_startup s lvl w)))).

(** The timestamp [_now_iso] produces for a clock reading. *)
Definition stamp (d : datetime) : string :=
  (isoformat (replace_microsecond d 0) ++ "Z")%string.


(** The value of a field of the response model, as a Python value. *)
Definition field_value (resp : AnalyzeResponse) (field : string) : option pyval :=
  if String.eqb field "id" then Some (VStr (id resp))
  else if String.eqb field "status" then Some (VStr (status resp))
  else if String.eqb field "plantName" then Some (VStr (plantName resp))
  else if String.eqb field "issues" then Some (VList (map VDict (issues resp)))
  else if String.eqb field "score" then Some (VFloat (score resp))
  else if String.eqb field "recommendations"
       then Some (VList (map VDict (recommendations resp)))
  else if String.eqb field "weatherSnapshot" then Some (VDict (weatherSnapshot resp))
  else if String.eqb field "createdAt" then Some (VStr (createdAt resp))
  else None.

(** The records one run of the analyze handler hands to the logger. *)
Definition handler_records (s : Settings) (lvl : Z) (req : AnalyzeRequest)
  : list LogRecord :=
  if has_image_source req
  then request_records s lvl (truthy (imageUrl req)) (truthy (imageBase64 req))
  else [].

Definition not_implemented_message : string :=
  "Real model inference not yet implemented".

Definition base64_request : AnalyzeRequest :=
  mkAnalyzeRequest None (Some "aGVsbG8=").

Definition empty_request : AnalyzeRequest :=
  mkAnalyzeRequest None (Some "").

(** A clock that has moved on by one second between its first read and the
    later ones. *)
Definition ticking_world : World :=
  mkWorld (fun n => match n with
                    | O => mkDatetime 2026 12 31 23 59 58 999999
                    | S _ => mkDatetime 2026 12 31 23 59 59 17
                    end) 0 [].

Definition request_message : string := "Received analysis request".

Definition startup_record (s : Settings) : LogRecord :=
  mkLogRecord (service_name s) INFO "Analysis service starting"
              [ ("mock", VBool (mock_analysis s)) ].

Definition shutdown_record (s : Settings) : LogRecord :=
  mkLogRecord (service_name s) INFO "Analysis service shutting down" [].

(** Lexicographic combination of two comparisons. *)
Definition lex (c k : comparison) : comparison :=
  match c with
  | Eq => k
  | Lt => Lt
  | Gt => Gt
  end.

(** Chronological comparison of two clock readings, to the second. *)
Definition chrono_compare (d1 d2 : datetime) : comparison :=
  lex (year d1 ?= year d2)
 (lex (month d1 ?= month d2)
 (lex (day d1 ?= day d2)
 (lex (hour d1 ?= hour d2)
 (lex (minute d1 ?= minute d2)
      (second d1 ?= second d2))))).

(** Unfolding of the service's monadic code, and case analysis on the
    logger's level tests. *)
Ltac unfold_service :=
  unfold analyze, analyze_image, run_mock_analysis, _now_iso, utcnow,
    logger_info, logger_debug, logger_log, get_settings, bind, ret, raise, lift.

Ltac level_cases lvl :=
  destruct (lvl <=? INFO); destruct (lvl <=? DEBUG); simpl.


(** ** Basic facts *)

Lemma truthy_false_iff (o : option string) :
  truthy o = false <-> o = None \/ o = Some "".
Proof.
  destruct o as [s|]; simpl.
  - rewrite negb_false_iff, String.eqb_eq. split.
    + intros ->. now right.
    + intros [H|H]; [discriminate | now inversion H].
  - split; auto.
Qed.

Lemma truthy_true_iff (o : option string) :
  truthy o = true <-> exists s, o = Some s /\ s <> "".
Proof.
  destruct o as [s|]; simpl.
  - rewrite negb_true_iff, String.eqb_neq. split.
    + intros H. exists s. now split.
    + intros (s' & E & H). now inversion E; subst.
  - split; [discriminate | intros (s & E & _); discriminate].
Qed.

Lemma logger_log_returns s lvl level msg extra w :
  fst (logger_log s lvl level msg extra w) = Returned tt.
Proof. unfold logger_log. now destruct (lvl <=? level). Qed.

Lemma logger_log_clock s lvl level msg extra w :
  clock (snd (logger_log s lvl level msg extra w)) = clock w /\
  reads (snd (logger_log s lvl level msg extra w)) = reads w.
Proof. unfold logger_log. now destruct (lvl <=? level). Qed.

Lemma emitted_log w0 w1 l :
  log w1 = log w0 ++ l -> emitted w0 w1 = l.
Proof.
  unfold emitted. intros ->.
  rewrite skipn_app, skipn_all, Nat.sub_diag. reflexivity.
Qed.

(** ** Request validation *)

(** C1: [validate_payload] raises [ValueError] with the exact message
    "Either imageUrl or imageBase64 must be provided" if and only if both
    [imageUrl] and [imageBase64] are absent or empty; when at least one of
    them is present and not empty (both may be) it returns [None] without
    raising; it raises nothing else. *)
Theorem validate_payload_raises_iff_both_falsy (req : AnalyzeRequest) :
  (validate_payload req = Raised (ValueError validation_message) <->
     (imageUrl req = None \/ imageUrl req = Some "") /\
     (imageBase64 req = None \/ imageBase64 req = Some "")) /\
  ((exists s, imageUrl req = Some s /\ s <> "") \/
   (exists s, imageBase64 req = Some s /\ s <> "") ->
     validate_payload req = Returned tt) /\
  (forall e, validate_payload req = Raised e -> e = ValueError validation_message).
Proof.
  rewrite <- !truthy_false_iff, <- !truthy_true_iff.
  unfold validate_payload, validation_message.
  destruct (truthy (imageUrl req)), (truthy (imageBase64 req)); simpl;
    repeat split; intros; try discriminate; try tauto; try congruence.
  all: match goal with
       | H : _ /\ _ |- _ => destruct H; discriminate
       | H : _ \/ _ |- _ => destruct H; discriminate
       end.
Qed.

Lemma validate_payload_witness :
  validate_payload url_request = Returned tt.
Proof.
  apply (proj1 (proj2 (validate_payload_raises_iff_both_falsy url_request))).
  left. exists "https://example.com/plant.jpg". split; [reflexivity | discriminate].
Defined.

(** The handler turns the validation failure into a 400 response that
    carries the same message, and leaves the world untouched. *)
Lemma analyze_rejects_empty_request s lvl req w :
  truthy (imageUrl req) = false -> truthy (imageBase64 req) = false ->
  analyze s lvl req w = (Raised (HTTPException 400 validation_message), w).
Proof.
  intros Hu Hb. unfold analyze, validate_payload. rewrite Hu, Hb. reflexivity.
Qed.

(** ** The mock analyzer *)

(** C2: with no override name, [run_mock_analysis] returns an object whose
    id is "analysis_mock_001", status "completed", plantName "Monstera
    Deliciosa", score 0.85, issues the single entry
    {code: "yellow_leaf", severity: "moderate", confidence: 0.72}, and whose
    weatherSnapshot has tempC 33, humidity 70 and condition "sunny". *)
Theorem run_mock_analysis_default_literals s lvl w :
  exists r ws,
    fst (run_mock_analysis s lvl None w) = Returned r /\
    dict_get r "id" = Some (VStr "analysis_mock_001") /\
    dict_get r "status" = Some (VStr "completed") /\
    dict_get r "plantName" = Some (VStr "Monstera Deliciosa") /\
    dict_get r "score" = Some (VFloat 0.85) /\
    dict_get r "issues" =
      Some (VList [ VDict [ ("code", VStr "yellow_leaf");
                            ("severity", VStr "moderate");
                            ("confidence", VFloat 0.72) ] ]) /\
    dict_get r "weatherSnapshot" = Some (VDict ws) /\
    dict_get ws "tempC" = Some (VInt 33) /\
    dict_get ws "humidity" = Some (VInt 70) /\
    dict_get ws "condition" = Some (VStr "sunny").
Proof.
  unfold_service. destruct (lvl <=? DEBUG); simpl;
    do 2 eexists; repeat split; reflexivity.
Qed.

(** The score and the confidence of the mock result lie in [0, 1]. *)
Lemma mock_score_in_unit_interval :
  (0 <= 0.85 <= 1)%Q /\ (0 <= 0.72 <= 1)%Q.
Proof. repeat split; unfold Qle; simpl; lia. Qed.

(** [run_mock_analysis] always returns; it reads the clock twice. *)
Lemma run_mock_analysis_returns s lvl pn w :
  is_returned (fst (run_mock_analysis s lvl pn w)) = true /\
  reads (snd (run_mock_analysis s lvl pn w)) = S (S (reads w)) /\
  clock (snd (run_mock_analysis s lvl pn w)) = clock w.
Proof. unfold_service. destruct (lvl <=? DEBUG); simpl; auto. Qed.

(** C3: [analyze_image] raises [NotImplementedError] if and only if the
    [mock_analysis] flag is false; when the flag is true it returns what
    [run_mock_analysis()] returns (after the request was logged), so a
    result is returned exactly when mock mode is on. *)
Theorem analyze_image_not_implemented_iff s lvl image_url image_base64 w :
  ((exists msg, fst (analyze_image s lvl image_url image_base64 w)
                = Raised (NotImplementedError msg)) <->
     mock_analysis s = false) /\
  (mock_analysis s = true ->
     analyze_image s lvl image_url image_base64 w =
     run_mock_analysis s lvl None
       (snd (logger_info s lvl "Received analysis request"
               [ ("hasUrl", VBool (truthy image_url));
                 ("hasBase64", VBool (truthy image_base64)) ] w))) /\
  is_returned (fst (analyze_image s lvl image_url image_base64 w))
    = mock_analysis s.
Proof.
  unfold_service. destruct (mock_analysis s); level_cases lvl;
    repeat split; intros; try reflexivity; try discriminate; eauto.
  all: match goal with H : exists _, _ |- _ => destruct H; discriminate end.
Qed.

Lemma analyze_image_not_implemented_witness :
  (exists msg, fst (analyze_image no_mock_settings 20 None (Some "aGVsbG8=") sample_world)
               = Raised (NotImplementedError msg)) /\
  fst (analyze_image default_settings 20 None (Some "aGVsbG8=") sample_world)
  = fst (run_mock_analysis default_settings 20 None sample_world).
Proof.
  split.
  - apply (proj1 (analyze_image_not_implemented_iff
                    no_mock_settings 20 None (Some "aGVsbG8=") sample_world)).
    reflexivity.
  - rewrite (proj1 (proj2 (analyze_image_not_implemented_iff
                    default_settings 20 None (Some "aGVsbG8=") sample_world)));
      reflexivity.
Defined.

(** ** Independence from the request payload *)

(** C4: under mock mode any two calls of [analyze_image], whatever their
    [image_url] and [image_base64] and whenever they are made, return results
    that agree in every field but [weatherSnapshot.capturedAt] and
    [createdAt]; made at the same clock, they return the same result, so the
    result never depends on the payload. *)
Theorem analyze_image_payload_independent s lvl u1 b1 u2 b2 w1 w2 :
  mock_analysis s = true ->
  exists r1 r2,
    fst (analyze_image s lvl u1 b1 w1) = Returned r1 /\
    fst (analyze_image s lvl u2 b2 w2) = Returned r2 /\
    strip_timestamps r1 = strip_timestamps r2 /\
    (clock w1 = clock w2 -> reads w1 = reads w2 -> r1 = r2).
Proof.
  intros Hmock. unfold_service. rewrite Hmock.
  level_cases lvl; do 2 eexists; repeat split; try reflexivity.
  all: intros -> ->; reflexivity.
Qed.

Lemma analyze_image_payload_independent_witness :
  exists r1 r2,
    fst (analyze_image default_settings 20
           (Some "https://example.com/plant.jpg") None sample_world) = Returned r1 /\
    fst (analyze_image default_settings 20
           None (Some "aGVsbG8=") (mkWorld (fun _ => mkDatetime 2027 1 1 0 0 0 0) 5 []))
      = Returned r2 /\
    strip_timestamps r1 = strip_timestamps r2.
Proof.
  destruct (analyze_image_payload_independent default_settings 20
              (Some "https://example.com/plant.jpg") None None (Some "aGVsbG8=")
              sample_world (mkWorld (fun _ => mkDatetime 2027 1 1 0 0 0 0) 5 [])
              eq_refl) as (r1 & r2 & H1 & H2 & H3 & _).
  exists r1, r2. auto.
Defined.

(** ** Recommendations *)

(** C5 as stated fails: the entries carry the key "desc", not
    "description". *)
Lemma recommendations_not_description :
  exists r,
    fst (run_mock_analysis default_settings 20 None sample_world) = Returned r /\
    recommendations_shape ["id"; "title"; "description"] r = false.
Proof. eexists. split; reflexivity. Qed.

(** C5 (amended): every result of [run_mock_analysis] has a
    [recommendations] field that is a sequence of exactly two fixed entries,
    each an object with exactly the keys id, title and desc. *)
Theorem recommendations_two_entries_id_title_desc s lvl plant_name w :
  exists r e1 e2,
    fst (run_mock_analysis s lvl plant_name w) = Returned r /\
    dict_get r "recommendations" = Some (VList [e1; e2]) /\
    recommendations_shape ["id"; "title"; "desc"] r = true /\
    e1 = VDict [ ("id", VStr "tip_water_adjust");
                 ("title", VStr "ลดการรดน้ำ");
                 ("desc", VStr "ลดความถี่ลงเหลือทุก 5 วัน") ] /\
    e2 = VDict [ ("id", VStr "tip_light");
                 ("title", VStr "เพิ่มแสงอ่อน");
                 ("desc", VStr "ตั้งใกล้หน้าต่างกรองแสงในตอนเช้า") ].
Proof.
  unfold_service. destruct (lvl <=? DEBUG); simpl;
    do 3 eexists; repeat split; reflexivity.
Qed.

(** ** Health *)

Lemma health_any_state (w : World) :
  health w = (Returned health_envelope, w).
Proof. reflexivity. Qed.

(** C7: the health handler returns the envelope
    {"data": {"status": "ok"}, "meta": {}, "errors": []} whatever requests
    were served before and whatever the state, and it changes nothing. *)
Theorem health_fixed_envelope s lvl (prior : list AnalyzeRequest) (w : World) :
  fst (health (after_requests s lvl prior w))
  = Returned (VDict [ ("data", VDict [ ("status", VStr "ok") ]);
                      ("meta", VDict []);
                      ("errors", VList []) ]) /\
  snd (health (after_requests s lvl prior w)) = after_requests s lvl prior w.
Proof.
  rewrite health_any_state. split.
  - reflexivity.
  - reflexivity.
Qed.

(** ** Logging *)

Lemma analyze_image_emits s lvl u b w :
  emitted w (snd (analyze_image s lvl u b w))
  = request_records s lvl (truthy u) (truthy b).
Proof.
  unfold_service. unfold request_records.
  destruct (mock_analysis s); level_cases lvl;
    apply emitted_log; simpl; now rewrite <- ?app_assoc, ?app_nil_r.
Qed.

(** C8: the log records emitted by a call of [analyze_image] depend only on
    [bool(image_url)] and [bool(image_base64)]: calls with the same presence
    pattern emit identical records, whatever the payloads and the state; the
    only values attached to a record are booleans. *)
Theorem analyze_image_log_presence_only s lvl u1 b1 u2 b2 w1 w2 :
  truthy u1 = truthy u2 ->
  truthy b1 = truthy b2 ->
  emitted w1 (snd (analyze_image s lvl u1 b1 w1))
  = emitted w2 (snd (analyze_image s lvl u2 b2 w2)) /\
  Forall (fun rec => Forall (fun kv => exists b, snd kv = VBool b) (lr_extra rec))
         (emitted w1 (snd (analyze_image s lvl u1 b1 w1))).
Proof.
  intros Hu Hb. rewrite !analyze_image_emits, Hu, Hb. split; [reflexivity|].
  unfold request_records.
  destruct (lvl <=? INFO), (mock_analysis s && (lvl <=? DEBUG))%bool; simpl;
    repeat constructor; simpl; eauto.
Qed.

Lemma analyze_image_log_presence_only_witness :
  emitted sample_world
    (snd (analyze_image default_settings 10
            (Some "https://example.com/a.jpg") None sample_world))
  = emitted sample_world
      (snd (analyze_image default_settings 10
              (Some "https://example.com/secret.jpg") (Some "") sample_world)).
Proof.
  apply (proj1 (analyze_image_log_presence_only default_settings 10
                  (Some "https://example.com/a.jpg") None
                  (Some "https://example.com/secret.jpg") (Some "")
                  sample_world sample_world eq_refl eq_refl)).
Defined.

(** ** The override name *)

(** C9: for a falsy override name, the empty string as well as [None],
    [run_mock_analysis] returns plantName "Monstera Deliciosa"; the supplied
    name is used only when it is a non-empty string. *)
Theorem run_mock_analysis_plant_name s lvl plant_name w :
  exists r name,
    fst (run_mock_analysis s lvl plant_name w) = Returned r /\
    dict_get r "plantName" = Some (VStr name) /\
    (plant_name = None \/ plant_name = Some "" -> name = "Monstera Deliciosa") /\
    (forall n, plant_name = Some n -> n <> "" -> name = n) /\
    (name <> "Monstera Deliciosa" -> plant_name = Some name /\ name <> "").
Proof.
  unfold_service. destruct (lvl <=? DEBUG); simpl;
    do 2 eexists; (split; [reflexivity|]); (split; [reflexivity|]).
  all: destruct plant_name as [n|]; simpl.
  all: try destruct (String.eqb_spec n ""); simpl; subst.
  all: repeat split; intros; try congruence.
  all: match goal with
       | H : _ \/ _ |- _ => destruct H; congruence
       end.
Qed.

Lemma run_mock_analysis_plant_name_witness :
  exists r,
    fst (run_mock_analysis default_settings 20 (Some "") sample_world) = Returned r /\
    dict_get r "plantName" = Some (VStr "Monstera Deliciosa").
Proof.
  destruct (run_mock_analysis_plant_name default_settings 20 (Some "") sample_world)
    as (r & name & Hr & Hn & Hfalsy & _).
  exists r. split; [exact Hr|].
  rewrite Hn. rewrite (Hfalsy (or_intror eq_refl)). reflexivity.
Defined.

(** ** Shape of the result and construction of the response *)

(** C10: for every [plant_name] the dict returned by [run_mock_analysis] has
    exactly the eight keys id, status, plantName, issues, score,
    recommendations, weatherSnapshot and createdAt, and the construction of an
    [AnalyzeResponse] from it succeeds. *)
Theorem run_mock_analysis_fits_response s lvl plant_name w :
  exists r resp,
    fst (run_mock_analysis s lvl plant_name w) = Returned r /\
    keys r = response_fields /\
    AnalyzeResponse_init r = Returned resp.
Proof.
  unfold_service. destruct (lvl <=? DEBUG); simpl;
    do 2 eexists; repeat split; reflexivity.
Qed.

(** On the success path of the handler (a request that passes validation,
    mock mode on) the response is built and returned. *)
Lemma analyze_succeeds s lvl req w :
  mock_analysis s = true ->
  validate_payload req = Returned tt ->
  exists resp,
    fst (analyze s lvl req w) = Returned resp /\
    id resp = "analysis_mock_001" /\
    status resp = "completed" /\
    plantName resp = "Monstera Deliciosa" /\
    score resp = 0.85%Q /\
    issues resp <> [] /\
    recommendations resp <> [].
Proof.
  intros Hmock Hval. unfold analyze. rewrite Hval.
  unfold_service. rewrite Hmock.
  level_cases lvl; eexists; repeat split; try reflexivity; discriminate.
Qed.

(** With mock mode off the handler lets the [NotImplementedError] through:
    nothing is returned. *)
Lemma analyze_not_implemented s lvl req w :
  mock_analysis s = false ->
  validate_payload req = Returned tt ->
  fst (analyze s lvl req w)
  = Raised (NotImplementedError "Real model inference not yet implemented").
Proof.
  intros Hmock Hval. unfold analyze. rewrite Hval.
  unfold_service. rewrite Hmock. destruct (lvl <=? INFO); reflexivity.
Qed.

(** A 400 response is produced only for a request with no image source. *)
Lemma analyze_400_only_when_empty s lvl req w code detail :
  fst (analyze s lvl req w) = Raised (HTTPException code detail) ->
  truthy (imageUrl req) = false /\ truthy (imageBase64 req) = false.
Proof.
  unfold analyze, validate_payload.
  destruct (truthy (imageUrl req)), (truthy (imageBase64 req)); simpl; auto.
  all: unfold_service; destruct (mock_analysis s); level_cases lvl;
    discriminate.
Qed.

(** ** Timestamps *)

Lemma checked_below (P : Z -> bool) (n : nat) :
  forallb (fun k => P (Z.of_nat k)) (seq 0 n) = true ->
  forall z, 0 <= z < Z.of_nat n -> P z = true.
Proof.
  intros Hall z Hz. rewrite forallb_forall in Hall.
  rewrite <- (Z2Nat.id z) by lia. apply Hall, in_seq. lia.
Qed.

Lemma fmt_0d_two_digits z :
  0 <= z < 100 -> two_digits_of z (fmt_0d 2 z) = true.
Proof.
  apply (checked_below (fun z => two_digits_of z (fmt_0d 2 z)) 100).
  vm_compute. reflexivity.
Qed.

Lemma fmt_0d_four_digits z :
  0 <= z < 10000 -> four_digits_of z (fmt_0d 4 z) = true.
Proof.
  apply (checked_below (fun z => four_digits_of z (fmt_0d 4 z)) (100 * 100)).
  vm_compute. reflexivity.
Qed.

Lemma two_digits_inv z s :
  two_digits_of z s = true ->
  exists a b, s = String a (String b "") /\
    is_digit a = true /\ is_digit b = true /\
    10 * digit_val a + digit_val b = z.
Proof.
  destruct s as [|a [|b [|]]]; simpl; try discriminate.
  rewrite !andb_true_iff, Z.eqb_eq. intros [[Ha Hb] Hz].
  exists a, b. auto.
Qed.

Lemma four_digits_inv z s :
  four_digits_of z s = true ->
  exists a b c d, s = String a (String b (String c (String d ""))) /\
    is_digit a = true /\ is_digit b = true /\ is_digit c = true /\ is_digit d = true /\
    1000 * digit_val a + 100 * digit_val b + 10 * digit_val c + digit_val d = z.
Proof.
  destruct s as [|a [|b [|c [|d [|]]]]]; simpl; try discriminate.
  rewrite !andb_true_iff, Z.eqb_eq. intros [[[[Ha Hb] Hc] Hd] Hz].
  exists a, b, c, d. auto 6.
Qed.

Lemma days_in_month_le_31 y m : days_in_month y m <= 31.
Proof.
  unfold days_in_month.
  destruct (m =? 2); [destruct (is_leap y); lia|].
  destruct ((m =? 4) || (m =? 6) || (m =? 9) || (m =? 11))%bool; lia.
Qed.

Lemma valid_datetime_bounds d :
  valid_datetime d = true ->
  1 <= year d <= 9999 /\ 1 <= month d <= 12 /\ 1 <= day d <= 31 /\
  0 <= hour d <= 23 /\ 0 <= minute d <= 59 /\ 0 <= second d <= 59.
Proof.
  unfold valid_datetime. rewrite !andb_true_iff, !Z.leb_le.
  pose proof (days_in_month_le_31 (year d) (month d)). lia.
Qed.

(** The text produced for a clock reading: it has the shape
    [YYYY-MM-DDTHH:MM:SSZ] and reads back as the reading cut to whole
    seconds. *)
Lemma truncated_isoformat_Z d :
  valid_datetime d = true ->
  matches iso_seconds_Z (isoformat (replace_microsecond d 0) ++ "Z") = true /\
  parse_iso_seconds_Z (isoformat (replace_microsecond d 0) ++ "Z")
  = Some (replace_microsecond d 0).
Proof.
  intros Hv. apply valid_datetime_bounds in Hv.
  destruct d as [y mo dd h mi se us]; simpl in Hv.
  unfold isoformat, replace_microsecond; simpl.
  destruct (four_digits_inv y _ (fmt_0d_four_digits y ltac:(lia)))
    as (y1 & y2 & y3 & y4 & -> & Hy1 & Hy2 & Hy3 & Hy4 & Hy).
  destruct (two_digits_inv mo _ (fmt_0d_two_digits mo ltac:(lia)))
    as (m1 & m2 & -> & Hm1 & Hm2 & Hmo).
  destruct (two_digits_inv dd _ (fmt_0d_two_digits dd ltac:(lia)))
    as (d1 & d2 & -> & Hd1 & Hd2 & Hdd).
  destruct (two_digits_inv h _ (fmt_0d_two_digits h ltac:(lia)))
    as (h1 & h2 & -> & Hh1 & Hh2 & Hh).
  destruct (two_digits_inv mi _ (fmt_0d_two_digits mi ltac:(lia)))
    as (n1 & n2 & -> & Hn1 & Hn2 & Hmi).
  destruct (two_digits_inv se _ (fmt_0d_two_digits se ltac:(lia)))
    as (s1 & s2 & -> & Hs1 & Hs2 & Hse).
  subst y mo dd h mi se.
  unfold parse_iso_seconds_Z; simpl.
  rewrite Hy1, Hy2, Hy3, Hy4, Hm1, Hm2, Hd1, Hd2, Hh1, Hh2, Hn1, Hn2, Hs1, Hs2.
  split; reflexivity.
Qed.

(** C6: in every result of [run_mock_analysis], [weatherSnapshot.capturedAt]
    and [createdAt] are each the text of a reading of the UTC clock (the
    first and the second reading of the call) cut to whole seconds, in ISO
    8601 with a trailing "Z" and no fraction: each has the form
    [YYYY-MM-DDTHH:MM:SSZ] and denotes its reading without the
    microseconds. *)
Theorem run_mock_analysis_timestamps s lvl plant_name w :
  valid_clock w ->
  exists r ws t1 t2,
    fst (run_mock_analysis s lvl plant_name w) = Returned r /\
    dict_get r "weatherSnapshot" = Some (VDict ws) /\
    dict_get ws "capturedAt" = Some (VStr t1) /\
    dict_get r "createdAt" = Some (VStr t2) /\
    matches iso_seconds_Z t1 = true /\
    matches iso_seconds_Z t2 = true /\
    parse_iso_seconds_Z t1 = Some (replace_microsecond (clock w (reads w)) 0) /\
    parse_iso_seconds_Z t2 = Some (replace_microsecond (clock w (S (reads w))) 0).
Proof.
  intros Hclock.
  destruct (truncated_isoformat_Z _ (Hclock (reads w))) as [Hm1 Hp1].
  destruct (truncated_isoformat_Z _ (Hclock (S (reads w)))) as [Hm2 Hp2].
  unfold_service.
  destruct (lvl <=? DEBUG); cbn [fst snd clock reads];
    do 4 eexists; (split; [reflexivity|]); cbn [dict_get String.eqb Ascii.eqb Bool.eqb];
    repeat split; try reflexivity; assumption.
Qed.

Lemma run_mock_analysis_timestamps_witness :
  valid_clock sample_world /\
  exists r ws t1 t2,
    fst (run_mock_analysis default_settings 20 None sample_world) = Returned r /\
    dict_get r "weatherSnapshot" = Some (VDict ws) /\
    dict_get ws "capturedAt" = Some (VStr t1) /\
    dict_get r "createdAt" = Some (VStr t2) /\
    matches iso_seconds_Z t1 = true /\
    matches iso_seconds_Z t2 = true /\
    parse_iso_seconds_Z t1 = Some (replace_microsecond sample_datetime 0) /\
    parse_iso_seconds_Z t2 = Some (replace_microsecond sample_datetime 0).
Proof.
  split.
  - intros n. reflexivity.
  - apply (run_mock_analysis_timestamps default_settings 20 None sample_world).
    intros n. reflexivity.
Defined.

(** * Further properties of the service *)

(** ** The response model *)










(** X3: every field of the model is required: when one of the eight is
    absent from the keyword arguments, no response is built. *)
Theorem AnalyzeResponse_init_requires_fields kwargs field :
  In field response_fields ->
  dict_get kwargs field = None ->
  is_returned (AnalyzeResponse_init kwargs) = false.
Proof.
  intros Hin Hnone.
  assert (Hreq : forall A (v : pyval -> outcome A) a,
             outcome_bind (required kwargs field) v <> Returned a).
  { intros A v a. unfold required. rewrite Hnone. discriminate. }
  destruct (AnalyzeResponse_init kwargs) as [resp|e] eqn:H; [|reflexivity].
  exfalso. unfold AnalyzeResponse_init in H.
  repeat match type of H with
         | outcome_bind ?o _ = Returned _ =>
             let E := fresh "Hfield" in
             destruct o eqn:E; cbn [outcome_bind] in H; [|discriminate H]
         end.
  simpl in Hin.
  repeat (destruct Hin as [<-|Hin]); try contradiction;
    eapply Hreq; eassumption.
Qed.

Lemma AnalyzeResponse_init_requires_fields_witness :
  is_returned
    (AnalyzeResponse_init
       [ ("id", VStr "analysis_mock_001"); ("status", VStr "completed");
         ("plantName", VStr "Monstera Deliciosa"); ("issues", VList []);
         ("score", VFloat 0.85); ("recommendations", VList []);
         ("weatherSnapshot", VDict []) ]) = false.
Proof.
  apply (AnalyzeResponse_init_requires_fields _ "createdAt").
  - simpl. tauto.
  - reflexivity.
Defined.

(** ** The analyze handler *)

Lemma validate_payload_has_image_source req :
  validate_payload req =
  if has_image_source req then Returned tt
  else Raised (ValueError validation_message).
Proof.
  unfold validate_payload, has_image_source.
  destruct (truthy (imageUrl req)), (truthy (imageBase64 req)); reflexivity.
Qed.

(** What one run of the handler does to the world. *)
Lemma analyze_effect s lvl req w :
  log (snd (analyze s lvl req w)) = log w ++ handler_records s lvl req /\
  clock (snd (analyze s lvl req w)) = clock w /\
  reads (snd (analyze s lvl req w)) =
    if has_image_source req && mock_analysis s then S (S (reads w)) else reads w.
Proof.
  unfold analyze, handler_records, request_records.
  rewrite validate_payload_has_image_source.
  destruct (has_image_source req); simpl.
  - unfold_service. destruct (mock_analysis s); level_cases lvl;
      rewrite <- ?app_assoc, ?app_nil_r; auto.
  - rewrite app_nil_r. auto.
Qed.

(** X4: the handler returns a response exactly when the request names an
    image source and mock mode is on. *)
Theorem analyze_returns_iff s lvl req w :
  (exists resp, fst (analyze s lvl req w) = Returned resp) <->
  has_image_source req = true /\ mock_analysis s = true.
Proof.
  unfold analyze. rewrite validate_payload_has_image_source.
  destruct (has_image_source req); simpl.
  - unfold_service. destruct (mock_analysis s); level_cases lvl; split;
      try (intros [resp H]; discriminate H);
      try (intros [_ H]; discriminate H);
      try (intros _; eexists; reflexivity); auto.
  - split; [intros [resp H]; discriminate H | intros [H _]; discriminate H].
Qed.

Lemma analyze_returns_iff_witness :
  exists resp, fst (analyze default_settings 20 base64_request sample_world) = Returned resp.
Proof.
  apply (proj2 (analyze_returns_iff default_settings 20 base64_request sample_world)).
  split; reflexivity.
Defined.

(** X5: the handler answers 400 exactly when the request names no image
    source; the detail is then the validation message, and the call has no
    effect: nothing is logged and the clock is not read. *)
Theorem analyze_rejection_has_no_effect s lvl req w :
  ((exists code detail, fst (analyze s lvl req w) = Raised (HTTPException code detail))
     <-> has_image_source req = false) /\
  (has_image_source req = false ->
     analyze s lvl req w = (Raised (HTTPException 400 validation_message), w)).
Proof.
  unfold analyze. rewrite validate_payload_has_image_source.
  destruct (has_image_source req); simpl.
  - split; [|discriminate]. split; [|discriminate].
    intros (code & detail & H). exfalso. revert H.
    unfold_service. destruct (mock_analysis s); level_cases lvl; discriminate.
  - repeat split; eauto.
Qed.

Lemma analyze_rejection_has_no_effect_witness :
  analyze default_settings 10 empty_request sample_world
  = (Raised (HTTPException 400 validation_message), sample_world).
Proof.
  apply (proj2 (analyze_rejection_has_no_effect
                  default_settings 10 empty_request sample_world)).
  reflexivity.
Defined.

(** X6: the handler raises nothing but the 400 of a request without image
    source and the [NotImplementedError] of an accepted request with mock
    mode off; building the response never fails. *)
Theorem analyze_raises_only s lvl req w e :
  fst (analyze s lvl req w) = Raised e ->
  (e = HTTPException 400 validation_message /\ has_image_source req = false) \/
  (e = NotImplementedError not_implemented_message /\
   has_image_source req = true /\ mock_analysis s = false).
Proof.
  unfold analyze. rewrite validate_payload_has_image_source.
  destruct (has_image_source req); simpl.
  - unfold_service. destruct (mock_analysis s); level_cases lvl; intros H;
      try discriminate H; inversion H; right; auto.
  - intros H. inversion H. left. auto.
Qed.

Lemma analyze_raises_only_witness :
  (NotImplementedError not_implemented_message
   = HTTPException 400 validation_message /\ has_image_source base64_request = false) \/
  (NotImplementedError not_implemented_message
   = NotImplementedError not_implemented_message /\
   has_image_source base64_request = true /\ mock_analysis no_mock_settings = false).
Proof.
  apply (analyze_raises_only no_mock_settings 20 base64_request sample_world).
  reflexivity.
Defined.

(** X7: for an accepted request the handler passes the analyzer's result
    through: its response holds, field by field, the entries of the dict
    [analyze_image] returned, and its effects are those of [analyze_image]. *)
Theorem analyze_passes_result_through s lvl req w r :
  has_image_source req = true ->
  fst (analyze_image s lvl (imageUrl req) (imageBase64 req) w) = Returned r ->
  exists resp,
    analyze s lvl req w
    = (Returned resp, snd (analyze_image s lvl (imageUrl req) (imageBase64 req) w)) /\
    forall field, In field response_fields -> field_value resp field = dict_get r field.
Proof.
  intros Hsrc. unfold analyze. rewrite validate_payload_has_image_source, Hsrc.
  unfold_service. destruct (mock_analysis s); level_cases lvl; intros H;
    try discriminate H; injection H as <-.
  all: eexists; split; [reflexivity|].
  all: intros field Hin; simpl in Hin.
  all: repeat (destruct Hin as [<-|Hin]); try contradiction; reflexivity.
Qed.

Lemma analyze_passes_result_through_witness :
  exists r resp,
    fst (analyze_image default_settings 20 None (Some "aGVsbG8=") sample_world) = Returned r /\
    fst (analyze default_settings 20 base64_request sample_world) = Returned resp /\
    field_value resp "createdAt" = dict_get r "createdAt".
Proof.
  destruct (fst (analyze_image default_settings 20 None (Some "aGVsbG8=") sample_world))
    as [r|e] eqn:Hr; [|discriminate Hr].
  destruct (analyze_passes_result_through default_settings 20 base64_request
              sample_world r eq_refl Hr) as (resp & Heq & Hfields).
  exists r, resp. split; [reflexivity|]. split.
  - rewrite Heq. reflexivity.
  - apply Hfields. simpl. tauto.
Defined.

(** ** The mock analyzer, continued *)

(** X8: the override name reaches the [plantName] entry only: two calls in
    the same state with different names return dicts that are equal once
    [plantName] is taken out, and leave the same state behind. *)
Theorem run_mock_analysis_override_only_plant_name s lvl name1 name2 w :
  exists r1 r2,
    fst (run_mock_analysis s lvl name1 w) = Returned r1 /\
    fst (run_mock_analysis s lvl name2 w) = Returned r2 /\
    dict_del r1 "plantName" = dict_del r2 "plantName" /\
    dict_get r1 "plantName" = Some (VStr (py_or name1 "Monstera Deliciosa")) /\
    dict_get r2 "plantName" = Some (VStr (py_or name2 "Monstera Deliciosa")) /\
    snd (run_mock_analysis s lvl name1 w) = snd (run_mock_analysis s lvl name2 w).
Proof.
  unfold_service. destruct (lvl <=? DEBUG); simpl;
    do 2 eexists; repeat split; reflexivity.
Qed.





(** ** Sessions: the handler over a sequence of requests *)

Lemma after_requests_log s lvl reqs :
  forall w, log (after_requests s lvl reqs w)
            = log w ++ flat_map (handler_records s lvl) reqs.
Proof.
  induction reqs as [|req reqs IH]; intros w; simpl.
  - now rewrite app_nil_r.
  - rewrite IH. destruct (analyze_effect s lvl req w) as (Hlog & _ & _).
    rewrite Hlog. now rewrite <- app_assoc.
Qed.

Lemma after_requests_emitted s lvl reqs w :
  emitted w (after_requests s lvl reqs w) = flat_map (handler_records s lvl) reqs.
Proof. apply emitted_log, after_requests_log. Qed.

Lemma handler_records_same_presence s lvl r1 r2 :
  same_presence r1 r2 -> handler_records s lvl r1 = handler_records s lvl r2.
Proof.
  intros [Hu Hb]. unfold handler_records, has_image_source. now rewrite Hu, Hb.
Qed.

(** X10: what a whole session writes to the log depends on the requests only
    through their presence patterns: two sequences of requests that agree,
    one by one, on which fields are present leave the same records, whatever
    the payloads and the states they start from. *)
Theorem session_log_presence_only s lvl reqs1 reqs2 w1 w2 :
  Forall2 same_presence reqs1 reqs2 ->
  emitted w1 (after_requests s lvl reqs1 w1)
  = emitted w2 (after_requests s lvl reqs2 w2).
Proof.
  intros Hsame. rewrite !after_requests_emitted.
  induction Hsame as [|r1 r2 l1 l2 Hr _ IH]; simpl.
  - reflexivity.
  - now rewrite IH, (handler_records_same_presence s lvl r1 r2 Hr).
Qed.

Lemma session_log_presence_only_witness :
  emitted sample_world
    (after_requests default_settings 10
       [mkAnalyzeRequest (Some "https://example.com/a.jpg") None; empty_request]
       sample_world)
  = emitted ticking_world
      (after_requests default_settings 10
         [mkAnalyzeRequest (Some "https://example.com/private.jpg") (Some "");
          mkAnalyzeRequest None None]
         ticking_world).
Proof.
  apply session_log_presence_only.
  repeat constructor.
Defined.

Lemma count_msg_app msg l1 l2 :
  count_msg msg (l1 ++ l2) = (count_msg msg l1 + count_msg msg l2)%nat.
Proof. unfold count_msg. now rewrite filter_app, length_app. Qed.

Lemma count_request_message_handler s lvl req :
  lvl <= INFO ->
  count_msg request_message (handler_records s lvl req)
  = if has_image_source req then 1%nat else 0%nat.
Proof.
  intros Hlvl. apply Z.leb_le in Hlvl.
  unfold handler_records, request_records. rewrite Hlvl.
  destruct (has_image_source req); [|reflexivity].
  destruct (mock_analysis s && (lvl <=? DEBUG))%bool; reflexivity.
Qed.

(** X11: when info records are enabled, a session leaves exactly one
    "Received analysis request" record per request that names an image
    source, mock mode on or off; a rejected request leaves none. *)
Theorem session_one_record_per_accepted_request s lvl reqs w :
  lvl <= INFO ->
  count_msg request_message (emitted w (after_requests s lvl reqs w))
  = count_accepted reqs.
Proof.
  intros Hlvl. rewrite after_requests_emitted. unfold count_accepted.
  induction reqs as [|req reqs IH]; simpl.
  - reflexivity.
  - rewrite count_msg_app, IH, (count_request_message_handler s lvl req Hlvl).
    destruct (has_image_source req); reflexivity.
Qed.

Lemma session_one_record_per_accepted_request_witness :
  count_msg request_message
    (emitted sample_world
       (after_requests no_mock_settings 20
          [base64_request; empty_request; url_request] sample_world))
  = 2%nat.
Proof.
  rewrite (session_one_record_per_accepted_request no_mock_settings 20
             [base64_request; empty_request; url_request] sample_world).
  - reflexivity.
  - unfold INFO. lia.
Defined.

(** X12: a session never changes the clock; under mock mode it reads it
    twice per accepted request, and with mock mode off it never reads it. *)
Theorem session_clock_reads s lvl reqs w :
  clock (after_requests s lvl reqs w) = clock w /\
  reads (after_requests s lvl reqs w)
  = (reads w + (if mock_analysis s then 2 * count_accepted reqs else 0))%nat.
Proof.
  revert w. unfold count_accepted.
  induction reqs as [|req reqs IH]; intros w; simpl.
  - split; [reflexivity|]. destruct (mock_analysis s); lia.
  - destruct (IH (snd (analyze s lvl req w))) as [Hc Hr].
    destruct (analyze_effect s lvl req w) as (_ & Hc1 & Hr1).
    rewrite Hc, Hr, Hc1, Hr1. split; [reflexivity|].
    destruct (has_image_source req), (mock_analysis s); simpl; lia.
Qed.

(** X13: a session only appends to the log: the records that were there
    stay, in place, and at most two records are added per accepted
    request. *)
Theorem session_log_append_only s lvl reqs w :
  exists added,
    log (after_requests s lvl reqs w) = log w ++ added /\
    (List.length added <= 2 * count_accepted reqs)%nat.
Proof.
  exists (flat_map (handler_records s lvl) reqs).
  split; [apply after_requests_log|].
  unfold count_accepted.
  induction reqs as [|req reqs IH]; simpl; [lia|].
  rewrite length_app. unfold handler_records at 1, request_records.
  destruct (has_image_source req); simpl; [|lia].
  destruct (lvl <=? INFO), (mock_analysis s && (lvl <=? DEBUG))%bool; simpl; lia.
Qed.

(** ** The life of the process: startup, requests, shutdown *)

Lemma logger_info_enabled s lvl msg extra w :
  lvl <= INFO ->
  logger_info s lvl msg extra w
  = (Returned tt,
     mkWorld (clock w) (reads w)
             (log w ++ [mkLogRecord (service_name s) INFO msg extra])).
Proof.
  intros Hlvl. apply Z.leb_le in Hlvl.
  unfold logger_info, logger_log. now rewrite Hlvl.
Qed.

Lemma logger_silent s lvl level msg extra w :
  level < lvl -> logger_log s lvl level msg extra w = (Returned tt, w).
Proof.
  intros Hlvl. apply Z.leb_gt in Hlvl.
  unfold logger_log. now rewrite Hlvl.
Qed.

(** X14: when info records are enabled, the log of a whole life of the
    process opens with the startup record, which carries the configured mock
    flag, and closes with the shutdown record; between the two lie the
    records of the requests, in the order they were served. *)
Theorem lifecycle_log_bracketed s lvl reqs w :
  lvl <= INFO ->
  emitted w (lifecycle s lvl reqs w)
  = startup_record s
      :: emitted (snd (on_startup s lvl w))
                 (after_requests s lvl reqs (snd (on_startup s lvl w)))
      ++ [shutdown_record s].
Proof.
  intros Hlvl. unfold lifecycle, on_startup, on_shutdown.
  rewrite !(logger_info_enabled s lvl _ _ _ Hlvl). cbn [snd].
  rewrite after_requests_emitted.
  apply emitted_log. cbn [log].
  rewrite after_requests_log. cbn [log].
  rewrite <- !app_assoc. reflexivity.
Qed.

Lemma lifecycle_log_bracketed_witness :
  emitted sample_world (lifecycle no_mock_settings 20 [empty_request] sample_world)
  = [ mkLogRecord "smart-plant-analysis" 20 "Analysis service starting"
        [ ("mock", VBool false) ];
      mkLogRecord "smart-plant-analysis" 20 "Analysis service shutting down" [] ].
Proof.
  rewrite (lifecycle_log_bracketed no_mock_settings 20 [empty_request] sample_world).
  - reflexivity.
  - unfold INFO. lia.
Defined.

(** X15: when the logger's level is above INFO the service writes nothing to
    the log during its whole life, whatever requests it serves. *)
Theorem lifecycle_silent_above_info s lvl reqs w :
  INFO < lvl ->
  log (lifecycle s lvl reqs w) = log w.
Proof.
  intros Hlvl. unfold lifecycle, on_startup, on_shutdown, logger_info.
  rewrite !(logger_silent s lvl INFO _ _ _ Hlvl). cbn [snd].
  rewrite after_requests_log.
  replace (flat_map (handler_records s lvl) reqs) with (@nil LogRecord);
    [apply app_nil_r|].
  induction reqs as [|req reqs IH]; simpl; [reflexivity|].
  rewrite <- IH, app_nil_r.
  unfold handler_records, request_records.
  assert (Hi : (lvl <=? INFO) = false) by (apply Z.leb_gt; exact Hlvl).
  assert (Hd : (lvl <=? DEBUG) = false)
    by (apply Z.leb_gt; unfold DEBUG, INFO in *; lia).
  rewrite Hi, Hd, andb_false_r.
  destruct (has_image_source req); reflexivity.
Qed.

Lemma lifecycle_silent_above_info_witness :
  log (lifecycle default_settings 30 [base64_request; url_request] sample_world) = [].
Proof.
  rewrite (lifecycle_silent_above_info default_settings 30
             [base64_request; url_request] sample_world).
  - reflexivity.
  - unfold INFO. lia.
Defined.

(** ** Timestamps as text *)

Lemma ascii_compare_digit_val a b :
  Ascii.compare a b = (digit_val a ?= digit_val b).
Proof.
  unfold Ascii.compare, digit_val, nat_of_ascii.
  rewrite !N_nat_Z, <- N2Z.inj_compare.
  destruct (Z.compare_spec (Z.of_N (N_of_ascii a)) (Z.of_N (N_of_ascii b)))
    as [->|Hlt|Hgt].
  - now rewrite Z.compare_refl.
  - symmetry. apply Z.compare_lt_iff. lia.
  - symmetry. apply Z.compare_gt_iff. lia.
Qed.

Lemma is_digit_val c :
  is_digit c = true -> 0 <= digit_val c <= 9.
Proof.
  unfold is_digit, digit_val. cbv zeta.
  rewrite andb_true_iff, !Nat.leb_le. lia.
Qed.

Lemma positional_compare a r a' r' :
  0 <= r <= 9 -> 0 <= r' <= 9 ->
  (10 * a + r ?= 10 * a' + r') = lex (a ?= a') (r ?= r').
Proof.
  intros Hr Hr'. destruct (Z.compare_spec a a') as [->|Hlt|Hgt]; cbn [lex].
  - apply Z.add_compare_mono_l.
  - apply Z.compare_lt_iff. lia.
  - apply Z.compare_gt_iff. lia.
Qed.

Lemma lex_assoc a b c : lex (lex a b) c = lex a (lex b c).
Proof. now destruct a. Qed.

(** The layout of a timestamp: fourteen digits that spell the six fields of
    the reading. *)
Lemma stamp_shape d :
  valid_datetime d = true ->
  exists y1 y2 y3 y4 m1 m2 d1 d2 h1 h2 n1 n2 s1 s2,
    stamp d =
      String y1 (String y2 (String y3 (String y4 (String "-"
     (String m1 (String m2 (String "-"
     (String d1 (String d2 (String "T"
     (String h1 (String h2 (String ":"
     (String n1 (String n2 (String ":"
     (String s1 (String s2 (String "Z" ""))))))))))))))))))) /\
    Forall (fun c => 0 <= digit_val c <= 9)
           [y1; y2; y3; y4; m1; m2; d1; d2; h1; h2; n1; n2; s1; s2] /\
    year d = 10 * (10 * (10 * digit_val y1 + digit_val y2) + digit_val y3) + digit_val y4 /\
    month d = 10 * digit_val m1 + digit_val m2 /\
    day d = 10 * digit_val d1 + digit_val d2 /\
    hour d = 10 * digit_val h1 + digit_val h2 /\
    minute d = 10 * digit_val n1 + digit_val n2 /\
    second d = 10 * digit_val s1 + digit_val s2.
Proof.
  intros Hv. apply valid_datetime_bounds in Hv.
  destruct d as [y mo dd h mi se us]; simpl in Hv.
  unfold stamp, isoformat, replace_microsecond;
    cbn [year month day hour minute second microsecond Z.eqb].
  destruct (four_digits_inv y _ (fmt_0d_four_digits y ltac:(lia)))
    as (y1 & y2 & y3 & y4 & -> & Hy1 & Hy2 & Hy3 & Hy4 & Hy).
  destruct (two_digits_inv mo _ (fmt_0d_two_digits mo ltac:(lia)))
    as (m1 & m2 & -> & Hm1 & Hm2 & Hmo).
  destruct (two_digits_inv dd _ (fmt_0d_two_digits dd ltac:(lia)))
    as (d1 & d2 & -> & Hd1 & Hd2 & Hdd).
  destruct (two_digits_inv h _ (fmt_0d_two_digits h ltac:(lia)))
    as (h1 & h2 & -> & Hh1 & Hh2 & Hh).
  destruct (two_digits_inv mi _ (fmt_0d_two_digits mi ltac:(lia)))
    as (n1 & n2 & -> & Hn1 & Hn2 & Hmi).
  destruct (two_digits_inv se _ (fmt_0d_two_digits se ltac:(lia)))
    as (s1 & s2 & -> & Hs1 & Hs2 & Hse).
  exists y1, y2, y3, y4, m1, m2, d1, d2, h1, h2, n1, n2, s1, s2.
  split; [reflexivity|]. split.
  - repeat constructor; now apply is_digit_val.
  - repeat split; lia.
Qed.

(** X16: timestamps sort as text the way their clock readings sort in time:
    for any two calls of [_now_iso], comparing the two returned strings
    character by character gives the chronological comparison of the two
    readings, to the second. *)
Theorem now_iso_orders_chronologically w1 w2 :
  valid_clock w1 -> valid_clock w2 ->
  exists t1 t2,
    fst (_now_iso w1) = Returned t1 /\
    fst (_now_iso w2) = Returned t2 /\
    String.compare t1 t2
    = chrono_compare (clock w1 (reads w1)) (clock w2 (reads w2)).
Proof.
  intros Hc1 Hc2.
  exists (stamp (clock w1 (reads w1))), (stamp (clock w2 (reads w2))).
  split; [reflexivity|]. split; [reflexivity|].
  destruct (stamp_shape _ (Hc1 (reads w1)))
    as (y1 & y2 & y3 & y4 & m1 & m2 & d1 & d2 & h1 & h2 & n1 & n2 & s1 & s2
        & -> & Hdig1 & Hy1 & Hmo1 & Hd1 & Hh1 & Hmi1 & Hs1).
  destruct (stamp_shape _ (Hc2 (reads w2)))
    as (y1' & y2' & y3' & y4' & m1' & m2' & d1' & d2' & h1' & h2' & n1' & n2'
        & s1' & s2'
        & -> & Hdig2 & Hy2 & Hmo2 & Hd2 & Hh2 & Hmi2 & Hs2).
  unfold chrono_compare. rewrite Hy1, Hmo1, Hd1, Hh1, Hmi1, Hs1.
  rewrite Hy2, Hmo2, Hd2, Hh2, Hmi2, Hs2.
  repeat match goal with
         | H : Forall _ (_ :: _) |- _ => inversion H; clear H; subst
         end.
  rewrite !positional_compare by lia.
  cbn [String.compare].
  rewrite !ascii_compare_digit_val, !Z.compare_refl.
  repeat match goal with
         | |- match ?c with Eq => _ | Lt => _ | Gt => _ end = _ =>
             destruct c; cbn [lex]; try reflexivity
         end.
Qed.

Lemma now_iso_orders_chronologically_witness :
  exists t1 t2,
    fst (_now_iso ticking_world) = Returned t1 /\
    fst (_now_iso (mkWorld (clock ticking_world) 1 [])) = Returned t2 /\
    String.compare t1 t2 = Lt.
Proof.
  destruct (now_iso_orders_chronologically
              ticking_world (mkWorld (clock ticking_world) 1 [])
              (fun n => match n with O => eq_refl | S _ => eq_refl end)
              (fun n => match n with O => eq_refl | S _ => eq_refl end))
    as (t1 & t2 & H1 & H2 & Hcmp).
  exists t1, t2. split; [exact H1|]. split; [exact H2|].
  rewrite Hcmp. reflexivity.
Defined.
